(** * ShaderTypes.h: slot registry and record layouts

    A model of [lagTestARKIT/Renderer/Core/ShaderTypes.h], the header shared
    by the Swift host code and the Metal shaders.  The header holds three
    [typedef enum]s (buffer, texture and vertex-attribute indices) and five
    [typedef struct]s (SharedUniforms, InstanceUniforms, LayerUniforms,
    ShadowUniforms, Vertex).  Enumerations become inductive types with their
    numeric value; structs become field lists laid out by the C rule (every
    field at the next offset that is a multiple of its alignment, the total
    rounded up to the struct's alignment). *)

From Stdlib Require Import ZArith List String Bool Lia Permutation.
Import ListNotations.
Local Open Scope Z_scope.

(** ** Slot registry *)

(** [// Buffer indices] *)
Inductive BufferIndex : Type :=
| BufferIndexMeshPositions
| BufferIndexMeshGenerics
| BufferIndexSharedUniforms
| BufferIndexInstanceUniforms.

(** [// Texture indices] *)
Inductive TextureIndex : Type :=
| TextureIndexY
| TextureIndexCbCr
| TextureIndexMask.

(** [// Vertex attribute indices] *)
Inductive VertexAttribute : Type :=
| VertexAttributePosition
| VertexAttributeTexcoord
| VertexAttributeNormal.

(** What a C enumeration gives: a name and an integer for each enumerator,
    and the enumerators in declaration order. *)
Class CEnum (E : Type) : Type := {
  enum_name : E -> string;
  enum_value : E -> Z;
  enum_all : list E
}.

Definition BufferIndex_name : BufferIndex -> string :=
  fun b =>
  match b with
  | BufferIndexMeshPositions => "BufferIndexMeshPositions"
  | BufferIndexMeshGenerics => "BufferIndexMeshGenerics"
  | BufferIndexSharedUniforms => "BufferIndexSharedUniforms"
  | BufferIndexInstanceUniforms => "BufferIndexInstanceUniforms"
  end%string.

Definition BufferIndex_value : BufferIndex -> Z :=
  fun b =>
  match b with
  | BufferIndexMeshPositions => 0
  | BufferIndexMeshGenerics => 1
  | BufferIndexSharedUniforms => 2
  | BufferIndexInstanceUniforms => 3
  end.

Definition BufferIndex_all : list BufferIndex :=
  [BufferIndexMeshPositions; BufferIndexMeshGenerics;
   BufferIndexSharedUniforms; BufferIndexInstanceUniforms].

#[export] Instance BufferIndex_enum : CEnum BufferIndex :=
  {| enum_name := BufferIndex_name;
     enum_value := BufferIndex_value;
     enum_all := BufferIndex_all |}.

Definition TextureIndex_name : TextureIndex -> string :=
  fun t =>
  match t with
  | TextureIndexY => "TextureIndexY"
  | TextureIndexCbCr => "TextureIndexCbCr"
  | TextureIndexMask => "TextureIndexMask"
  end%string.

Definition TextureIndex_value : TextureIndex -> Z :=
  fun t =>
  match t with
  | TextureIndexY => 0
  | TextureIndexCbCr => 1
  | TextureIndexMask => 8
  end.

Definition TextureIndex_all : list TextureIndex :=
  [TextureIndexY; TextureIndexCbCr; TextureIndexMask].

#[export] Instance TextureIndex_enum : CEnum TextureIndex :=
  {| enum_name := TextureIndex_name;
     enum_value := TextureIndex_value;
     enum_all := TextureIndex_all |}.

Definition VertexAttribute_name : VertexAttribute -> string :=
  fun a =>
  match a with
  | VertexAttributePosition => "VertexAttributePosition"
  | VertexAttributeTexcoord => "VertexAttributeTexcoord"
  | VertexAttributeNormal => "VertexAttributeNormal"
  end%string.

Definition VertexAttribute_value : VertexAttribute -> Z :=
  fun a =>
  match a with
  | VertexAttributePosition => 0
  | VertexAttributeTexcoord => 1
  | VertexAttributeNormal => 2
  end.

Definition VertexAttribute_all : list VertexAttribute :=
  [VertexAttributePosition; VertexAttributeTexcoord; VertexAttributeNormal].

#[export] Instance VertexAttribute_enum : CEnum VertexAttribute :=
  {| enum_name := VertexAttribute_name;
     enum_value := VertexAttribute_value;
     enum_all := VertexAttribute_all |}.

(** The numeric values an enumeration takes, in declaration order. *)
Definition enum_values (E : Type) `{CEnum E} : list Z :=
  map enum_value enum_all.

(** [enum_all] lists every enumerator: the enumeration is closed. *)
Definition enum_complete (E : Type) `{CEnum E} : Prop :=
  forall e : E, In e enum_all.

(** The enumerators as the header writes them: [Name = value]. *)
Definition enumerators (E : Type) `{CEnum E} : list (string * Z) :=
  map (fun e => (enum_name e, enum_value e)) enum_all.

(** The three slot namespaces. *)
Inductive Namespace : Type :=
| NsBuffer
| NsTexture
| NsVertexAttribute.

Definition all_namespaces : list Namespace :=
  [NsBuffer; NsTexture; NsVertexAttribute].

Definition ns_values (ns : Namespace) : list Z :=
  match ns with
  | NsBuffer => enum_values BufferIndex
  | NsTexture => enum_values TextureIndex
  | NsVertexAttribute => enum_values VertexAttribute
  end.

(** A slot is named by its namespace together with its number. *)
Definition ns_slots (ns : Namespace) : list (Namespace * Z) :=
  map (fun v => (ns, v)) (ns_values ns).

Definition all_slots : list (Namespace * Z) :=
  flat_map ns_slots all_namespaces.

(** Properties of a list of slot values. *)
Definition pairwise_distinct (vs : list Z) : Prop := NoDup vs.

Definition non_negative (vs : list Z) : Prop := Forall (fun v => 0 <= v) vs.

Definition starts_at_zero (vs : list Z) : Prop := In 0 vs.

(** Contiguous from zero with no gaps: the values are exactly
    [0 .. length - 1]. *)
Definition contiguous_from_zero (vs : list Z) : Prop :=
  forall v : Z, In v vs <-> 0 <= v < Z.of_nat (List.length vs).

Definition disjoint_values (vs ws : list Z) : Prop :=
  forall v : Z, In v vs -> ~ In v ws.

(** ** Record types *)

(** The scalar a type is made of. *)
Inductive scalar_kind : Type :=
| Float32      (* single-precision float *)
| SInt32       (* signed 32-bit integer *)
| UInt32.      (* unsigned 32-bit integer *)

(** The named types the header uses: C's [float] and [int], [uint32_t], and
    the vector and matrix types of [<simd/simd.h>]. *)
Inductive base_type : Type :=
| float
| int
| uint32_t
| vector_float2
| vector_float3
| matrix_float4x4.

(** A field's type: a named type, or an array declarator as in
    [float _pad[3]]. *)
Inductive ctype : Type :=
| Tbase (b : base_type)
| Tarray (elt : ctype) (len : Z).

Definition elem_kind (b : base_type) : scalar_kind :=
  match b with
  | float | vector_float2 | vector_float3 | matrix_float4x4 => Float32
  | int => SInt32
  | uint32_t => UInt32
  end.

(** Number of scalar components: 1 for a scalar, n for an n-vector, 4 x 4
    for the matrix. *)
Definition components (b : base_type) : Z :=
  match b with
  | float | int | uint32_t => 1
  | vector_float2 => 2
  | vector_float3 => 3
  | matrix_float4x4 => 4 * 4
  end.

(** The integers a scalar can hold ([None] for a float). *)
Definition int_range (k : scalar_kind) : option (Z * Z) :=
  match k with
  | Float32 => None
  | SInt32 => Some (- 2 ^ 31, 2 ^ 31 - 1)
  | UInt32 => Some (0, 2 ^ 32 - 1)
  end.

(** [admits b v]: [v] is a value of the integer type [b]. *)
Definition admits (b : base_type) (v : Z) : Prop :=
  match int_range (elem_kind b) with
  | Some (lo, hi) => lo <= v <= hi
  | None => False
  end.

Record field : Type := mkField {
  f_type : ctype;
  f_name : string
}.

(** A [typedef struct { ... } name;] with the comment written above it. *)
Record struct_decl : Type := mkStruct {
  s_comment : string;
  s_fields : list field;
  s_name : string
}.

(** [// Shared uniforms - must match structure in Swift] *)
Definition SharedUniforms : struct_decl :=
  {| s_comment := "Shared uniforms - must match structure in Swift";
     s_fields :=
       [ mkField (Tbase matrix_float4x4) "viewMatrix";
         mkField (Tbase matrix_float4x4) "projectionMatrix";
         mkField (Tbase vector_float3) "ambientLightColor";
         mkField (Tbase vector_float3) "directionalLightDirection";
         mkField (Tbase vector_float3) "directionalLightColor";
         mkField (Tbase float) "materialShininess";
         mkField (Tbase float) "time";
         mkField (Tarray (Tbase float) 3) "_pad" ];
     s_name := "SharedUniforms" |}.

(** [// Instance uniforms - must match structure in Swift] *)
Definition InstanceUniforms : struct_decl :=
  {| s_comment := "Instance uniforms - must match structure in Swift";
     s_fields := [ mkField (Tbase matrix_float4x4) "modelMatrix" ];
     s_name := "InstanceUniforms" |}.

(** [// Layer uniforms - must match structure in Swift] *)
Definition LayerUniforms : struct_decl :=
  {| s_comment := "Layer uniforms - must match structure in Swift";
     s_fields :=
       [ mkField (Tbase matrix_float4x4) "transform";
         mkField (Tbase float) "scale";
         mkField (Tbase float) "depth";
         mkField (Tbase int) "mode";
         mkField (Tbase float) "_pad" ];
     s_name := "LayerUniforms" |}.

(** [// Shadow uniforms - must match structure in Swift] *)
Definition ShadowUniforms : struct_decl :=
  {| s_comment := "Shadow uniforms - must match structure in Swift";
     s_fields :=
       [ mkField (Tbase matrix_float4x4) "lightViewMatrix";
         mkField (Tbase matrix_float4x4) "lightProjectionMatrix";
         mkField (Tbase float) "shadowBias" ];
     s_name := "ShadowUniforms" |}.

(** [// Vertex structure - must match structure in Swift] *)
Definition Vertex : struct_decl :=
  {| s_comment := "Vertex structure - must match structure in Swift";
     s_fields :=
       [ mkField (Tbase vector_float3) "position";
         mkField (Tbase vector_float2) "texCoord";
         mkField (Tbase uint32_t) "textureIndex" ];
     s_name := "Vertex" |}.

Definition records : list struct_decl :=
  [SharedUniforms; InstanceUniforms; LayerUniforms; ShadowUniforms; Vertex].

Definition find_field (name : string) (s : struct_decl) : option field :=
  find (fun f => String.eqb (f_name f) name) (s_fields s).

(** A reserved field: its name starts with [_pad]. *)
Definition is_padding_field (f : field) : bool :=
  String.prefix "_pad" (f_name f).

Definition has_padding_field (s : struct_decl) : bool :=
  existsb is_padding_field (s_fields s).

(** ** Layout *)

(** Size and alignment, in bytes, of the named types on the target.  The
    header takes them from the compiler and from [<simd/simd.h>], which is a
    platform header: they are a parameter of the layout. *)
Record target : Type := mkTarget {
  base_sizeof : base_type -> Z;
  base_alignof : base_type -> Z
}.

(** [off] rounded up to the next multiple of [a]. *)
Definition align_up (off a : Z) : Z := (off + a - 1) / a * a.

Section Layout.

Variable T : target.

Fixpoint sizeof (t : ctype) : Z :=
  match t with
  | Tbase b => base_sizeof T b
  | Tarray elt len => sizeof elt * len
  end.

Fixpoint alignof (t : ctype) : Z :=
  match t with
  | Tbase b => base_alignof T b
  | Tarray elt _ => alignof elt
  end.

(** Where a field declared after [off] bytes starts, and where it ends. *)
Definition field_start (off : Z) (f : field) : Z :=
  align_up off (alignof (f_type f)).

Definition field_end (off : Z) (f : field) : Z :=
  field_start off f + sizeof (f_type f).

(** The offset of every field, in declaration order. *)
Fixpoint offsets_from (off : Z) (fs : list field) : list (string * Z) :=
  match fs with
  | [] => []
  | f :: fs' => (f_name f, field_start off f) :: offsets_from (field_end off f) fs'
  end.

(** The end of the last field. *)
Fixpoint fields_end (off : Z) (fs : list field) : Z :=
  match fs with
  | [] => off
  | f :: fs' => fields_end (field_end off f) fs'
  end.

(** Bytes skipped in front of fields to align them. *)
Fixpoint interior_gaps (off : Z) (fs : list field) : Z :=
  match fs with
  | [] => 0
  | f :: fs' => (field_start off f - off) + interior_gaps (field_end off f) fs'
  end.

Definition fields_alignof (fs : list field) : Z :=
  fold_right (fun f a => Z.max (alignof (f_type f)) a) 1 fs.

Definition fields_sizeof (fs : list field) : Z :=
  align_up (fields_end 0 fs) (fields_alignof fs).

Definition field_offsets (s : struct_decl) : list (string * Z) :=
  offsets_from 0 (s_fields s).

Definition offsetof (s : struct_decl) (name : string) : option Z :=
  option_map snd
    (find (fun p => String.eqb (fst p) name) (field_offsets s)).

(** One past the last declared byte of the record. *)
Definition declared_end (s : struct_decl) : Z := fields_end 0 (s_fields s).

Definition struct_alignof (s : struct_decl) : Z := fields_alignof (s_fields s).

(** [sizeof(s)]: also the stride between consecutive records in a buffer. *)
Definition struct_sizeof (s : struct_decl) : Z := fields_sizeof (s_fields s).

(** Bytes the compiler adds after the last declared field. *)
Definition trailing_padding (s : struct_decl) : Z :=
  struct_sizeof s - declared_end s.

(** Bytes the compiler adds between declared fields. *)
Definition interior_padding (s : struct_decl) : Z :=
  interior_gaps 0 (s_fields s).

(** The declaration spells out every byte of the record. *)
Definition fully_explicit (s : struct_decl) : Prop :=
  interior_padding s = 0 /\ trailing_padding s = 0.

(** The bytes a field takes up in the record: from its start to the start
    of the next field, or to the end of the record for the last one. *)
Fixpoint footprints_from (off total : Z) (fs : list field) : list (field * Z) :=
  match fs with
  | [] => []
  | [f] => [(f, total - field_start off f)]
  | f :: (g :: _) as fs' =>
      (f, field_start (field_end off f) g - field_start off f)
        :: footprints_from (field_end off f) total fs'
  end.

Definition footprints (s : struct_decl) : list (field * Z) :=
  footprints_from 0 (struct_sizeof s) (s_fields s).

End Layout.

(** The least power of two that is not below [n]. *)
Definition pow2_ceil (n : Z) : Z := 2 ^ Z.log2_up n.

(** Bytes of a vector of [n] floats: it is as large as a vector of the next
    power of two many floats. *)
Definition simd_vector_bytes (n : Z) : Z := 4 * pow2_ceil n.

(** Modelled from the spec: the sizes and alignments of the named types.
    The header takes [matrix_float4x4], [vector_float3] and [vector_float2]
    from [<simd/simd.h>] and [uint32_t] from the C library, platform headers
    that are not among the sources.  The spec has every floating field
    single-precision and the texture index an unsigned 32-bit integer (4
    bytes each, as is C's [int] on the device), vector and matrix fields
    16-byte aligned, and a 3-component float vector 16 bytes large: a vector
    is as aligned as it is large, and a 4 x 4 matrix is four columns of
    4-vectors. *)
Definition simd : target :=
  {| base_sizeof := fun b =>
       match b with
       | float | int | uint32_t => 4
       | vector_float2 => simd_vector_bytes 2
       | vector_float3 => simd_vector_bytes 3
       | matrix_float4x4 => 4 * simd_vector_bytes 4
       end;
     base_alignof := fun b =>
       match b with
       | float | int | uint32_t => 4
       | vector_float2 => simd_vector_bytes 2
       | vector_float3 => simd_vector_bytes 3
       | matrix_float4x4 => simd_vector_bytes 4
       end |}.

(** The same rules with every vector, the 2-vector too, aligned to 16 bytes,
    which is how the spec words the device's alignment rule. *)
Definition simd_align16 : target :=
  {| base_sizeof := base_sizeof simd;
     base_alignof := fun b =>
       match b with
       | vector_float2 => 16
       | _ => base_alignof simd b
       end |}.

(** The other reading of a 3-vector: three packed floats, 12 bytes large
    and aligned as a float. *)
Definition packed3 : target :=
  {| base_sizeof := fun b =>
       match b with
       | vector_float3 => 12
       | _ => base_sizeof simd b
       end;
     base_alignof := fun b =>
       match b with
       | vector_float3 => 4
       | _ => base_alignof simd b
       end |}.

(** ** The header as a list of declarations *)

Inductive assert_kind : Type :=
| AssertSize
| AssertAlign.

(** The top-level items a C header can hold that matter here. *)
Inductive decl : Type :=
| Dinclude (header : string)
| Denum (name : string) (items : list (string * Z))
| Dstruct (s : struct_decl)
| Dstatic_assert (record : string) (k : assert_kind) (expected : Z)
| Dfunction (name : string).

(** Lines 15 to 87 of the header, inside its include guard. *)
Definition ShaderTypes_h : list decl :=
  [ Dinclude "simd/simd.h";
    Denum "BufferIndex" (enumerators BufferIndex);
    Denum "TextureIndex" (enumerators TextureIndex);
    Denum "VertexAttribute" (enumerators VertexAttribute);
    Dstruct SharedUniforms;
    Dstruct InstanceUniforms;
    Dstruct LayerUniforms;
    Dstruct ShadowUniforms;
    Dstruct Vertex ].

Definition declared_records (h : list decl) : list struct_decl :=
  flat_map (fun d => match d with Dstruct s => [s] | _ => [] end) h.

Definition is_layout_check (d : decl) : bool :=
  match d with
  | Dstatic_assert _ _ _ | Dfunction _ => true
  | _ => false
  end.

(** The static assertions of a header about the record named [r]. *)
Definition asserts_about (h : list decl) (r : string) (k : assert_kind) : list Z :=
  flat_map (fun d =>
    match d with
    | Dstatic_assert r' k' n =>
        if String.eqb r' r
        then match k, k' with
             | AssertSize, AssertSize | AssertAlign, AssertAlign => [n]
             | _, _ => []
             end
        else []
    | _ => []
    end) h.

(** Every record of the header has its size and its alignment asserted. *)
Definition layout_asserted (h : list decl) : Prop :=
  forall s : struct_decl, In s (declared_records h) ->
    asserts_about h (s_name s) AssertSize <> [] /\
    asserts_about h (s_name s) AssertAlign <> [].

Definition is_vector_float3 (t : ctype) : bool :=
  match t with
  | Tbase vector_float3 => true
  | _ => false
  end.

(** The bytes taken up by each 3-component float vector field of a record. *)
Definition vector_float3_footprints (T : target) (s : struct_decl) : list (string * Z) :=
  map (fun p => (f_name (fst p), snd p))
    (filter (fun p => is_vector_float3 (f_type (fst p))) (footprints T s)).

(** The comment above a record says that it must match the Swift side. *)
Definition says_must_match (s : struct_decl) : bool :=
  match String.index 0 "must match structure in Swift" (s_comment s) with
  | Some _ => true
  | None => false
  end.

Definition field_types (s : struct_decl) : list ctype := map f_type (s_fields s).

Definition field_names (s : struct_decl) : list string := map f_name (s_fields s).

Definition sum_sizeof (T : target) (fs : list field) : Z :=
  fold_right (fun f acc => sizeof T (f_type f) + acc) 0 fs.

(** ** Records in a buffer *)

(** A field placed in its record: the bytes from [e_start] up to, and not
    including, [e_end]. *)
Record extent : Type := mkExtent {
  e_field : field;
  e_start : Z;
  e_end : Z
}.

Fixpoint extents_from (T : target) (off : Z) (fs : list field) : list extent :=
  match fs with
  | [] => []
  | f :: fs' =>
      mkExtent f (field_start T off f) (field_end T off f)
        :: extents_from T (field_end T off f) fs'
  end.

Definition extents (T : target) (s : struct_decl) : list extent :=
  extents_from T 0 (s_fields s).

(** Records of one type lie one after the other in a buffer: record [i]
    starts [i * sizeof] bytes after the first. *)
Definition element_base (T : target) (s : struct_decl) (i : Z) : Z :=
  i * struct_sizeof T s.

(** A field that takes up at least one byte. *)
Definition sized (T : target) (f : field) : Prop := 0 < sizeof T (f_type f).

(** ** Including the header *)

(** [#ifndef ShaderTypes_h] / [#define ShaderTypes_h] / ... / [#endif]: the
    macro that guards the header. *)
Definition guard_macro : string := "ShaderTypes_h".

Definition is_defined (m : string) (defined : list string) : bool :=
  existsb (String.eqb m) defined.

(** One [#include "ShaderTypes.h"], given the macros defined so far: the
    declarations it brings and the macros defined after it. *)
Definition include_ShaderTypes_h (defined : list string) : list decl * list string :=
  if is_defined guard_macro defined
  then ([], defined)
  else (ShaderTypes_h, guard_macro :: defined).

(** The header included [n] times in a row. *)
Fixpoint include_times (n : nat) (defined : list string) : list decl * list string :=
  match n with
  | O => ([], defined)
  | S n' =>
      let (ds, defined') := include_ShaderTypes_h defined in
      let (ds', defined'') := include_times n' defined' in
      (ds ++ ds', defined'')
  end.

(** The identifiers a list of declarations introduces: enumerators and
    type names, which C keeps in one name space. *)
Definition declared_names (h : list decl) : list string :=
  flat_map (fun d =>
    match d with
    | Denum name items => map fst items ++ [name]
    | Dstruct s => [s_name s]
    | _ => []
    end) h.

Fixpoint distinct_names (l : list string) : bool :=
  match l with
  | [] => true
  | x :: l' => negb (existsb (String.eqb x) l') && distinct_names l'
  end.

(** * Properties *)

(** ** Rounding up to an alignment *)

Lemma align_up_bounds (off a : Z) :
  0 < a -> off <= align_up off a < off + a.
Proof.
  intros Ha. unfold align_up.
  pose proof (Z.mul_div_le (off + a - 1) a Ha) as Hle.
  pose proof (Z.mul_succ_div_gt (off + a - 1) a Ha) as Hgt.
  lia.
Qed.

Lemma align_up_divide (off a : Z) : (a | align_up off a).
Proof. unfold align_up. apply Z.divide_factor_r. Qed.

Lemma align_up_aligned (off a : Z) :
  0 < a -> (a | off) -> align_up off a = off.
Proof.
  intros Ha [k ->].
  pose proof (align_up_bounds (k * a) a Ha) as Hb.
  destruct (align_up_divide (k * a) a) as [q Hq].
  rewrite Hq in *.
  assert (k <= q) by (apply (Z.mul_le_mono_pos_r k q a); lia).
  assert (q < k + 1) by (apply (Z.mul_lt_mono_pos_r a q (k + 1)); lia).
  f_equal. lia.
Qed.

(** [align_up] gives the least multiple that is not below [off]. *)
Lemma align_up_least (off a m : Z) :
  0 < a -> (a | m) -> off <= m -> align_up off a <= m.
Proof.
  intros Ha [k ->] Hle.
  pose proof (align_up_bounds off a Ha) as Hb.
  destruct (align_up_divide off a) as [q Hq].
  rewrite Hq in *.
  assert (q < k + 1) by (apply (Z.mul_lt_mono_pos_r a q (k + 1)); lia).
  apply Z.mul_le_mono_nonneg_r; lia.
Qed.

(** ** The layout of any record, on any target *)

Section LayoutFacts.

Variable T : target.

(** Every named type has a positive alignment. *)
Hypothesis alignof_pos : forall b : base_type, 0 < base_alignof T b.

Lemma alignof_ctype_pos (t : ctype) : 0 < alignof T t.
Proof. induction t as [b | elt IH len]; simpl; [apply alignof_pos | exact IH]. Qed.

Lemma fields_alignof_pos (fs : list field) : 0 < fields_alignof T fs.
Proof.
  unfold fields_alignof. induction fs as [| f fs IH]; simpl; lia.
Qed.

Lemma field_start_ge (off : Z) (f : field) : off <= field_start T off f.
Proof.
  unfold field_start.
  pose proof (align_up_bounds off _ (alignof_ctype_pos (f_type f))). lia.
Qed.

(** Every field starts at a multiple of its own alignment. *)
Lemma field_start_aligned (off : Z) (f : field) :
  (alignof T (f_type f) | field_start T off f).
Proof. apply align_up_divide. Qed.

(** The size of a record is a multiple of its alignment and covers every
    declared byte. *)
Lemma fields_sizeof_aligned (fs : list field) :
  (fields_alignof T fs | fields_sizeof T fs).
Proof. apply align_up_divide. Qed.

Lemma fields_sizeof_covers (fs : list field) :
  fields_end T 0 fs <= fields_sizeof T fs < fields_end T 0 fs + fields_alignof T fs.
Proof. apply align_up_bounds, fields_alignof_pos. Qed.

(** Where the declared bytes go: the fields themselves and the gaps in
    front of them. *)
Lemma fields_end_accounting (off : Z) (fs : list field) :
  fields_end T off fs = off + sum_sizeof T fs + interior_gaps T off fs.
Proof.
  revert off. induction fs as [| f fs IH]; intros off; simpl.
  - lia.
  - rewrite IH. unfold field_end. lia.
Qed.

Lemma interior_gaps_nonneg (off : Z) (fs : list field) :
  0 <= interior_gaps T off fs.
Proof.
  revert off. induction fs as [| f fs IH]; intros off; simpl.
  - lia.
  - pose proof (field_start_ge off f). pose proof (IH (field_end T off f)). lia.
Qed.

(** The size of a record is what it declares plus the padding the compiler
    adds between and after the fields. *)
Lemma struct_sizeof_accounting (s : struct_decl) :
  struct_sizeof T s =
  sum_sizeof T (s_fields s) + interior_padding T s + trailing_padding T s.
Proof.
  unfold trailing_padding, interior_padding, declared_end, struct_sizeof.
  rewrite (fields_end_accounting 0). lia.
Qed.

Lemma trailing_padding_bounds (s : struct_decl) :
  0 <= trailing_padding T s < struct_alignof T s.
Proof.
  unfold trailing_padding, struct_sizeof, declared_end, struct_alignof.
  pose proof (fields_sizeof_covers (s_fields s)). lia.
Qed.

(** A record whose declared end is already aligned gets no trailing bytes. *)
Lemma aligned_end_no_trailing (s : struct_decl) :
  (struct_alignof T s | declared_end T s) -> trailing_padding T s = 0.
Proof.
  intros Hd. unfold trailing_padding, struct_sizeof, fields_sizeof.
  fold (declared_end T s). fold (struct_alignof T s).
  rewrite align_up_aligned; [lia | apply fields_alignof_pos | exact Hd].
Qed.

(** A record of one field is as large as the field when the field's size is
    a multiple of its alignment. *)
Lemma single_field_record (s : struct_decl) (f : field) :
  s_fields s = [f] ->
  (alignof T (f_type f) | sizeof T (f_type f)) ->
  struct_sizeof T s = sizeof T (f_type f) /\ fully_explicit T s.
Proof.
  intros Hs Hdiv.
  pose proof (alignof_ctype_pos (f_type f)) as Hpos.
  assert (Hal : struct_alignof T s = alignof T (f_type f)).
  { unfold struct_alignof, fields_alignof. rewrite Hs. simpl. lia. }
  assert (Hst : field_start T 0 f = 0).
  { unfold field_start. apply align_up_aligned; [exact Hpos | apply Z.divide_0_r]. }
  assert (Hend : declared_end T s = sizeof T (f_type f)).
  { unfold declared_end. rewrite Hs. simpl. unfold field_end. rewrite Hst. lia. }
  assert (Htr : trailing_padding T s = 0).
  { apply aligned_end_no_trailing. rewrite Hal, Hend. exact Hdiv. }
  split.
  - unfold trailing_padding in Htr. lia.
  - split; [| exact Htr].
    unfold interior_padding. rewrite Hs. simpl. rewrite Hst. lia.
Qed.

End LayoutFacts.

Lemma simd_alignof_pos (b : base_type) : 0 < base_alignof simd b.
Proof. destruct b; vm_compute; reflexivity. Qed.

(** Every enumerator's value is one of the values of its enumeration. *)
Lemma enum_value_in_values (E : Type) `{CEnum E} :
  enum_complete E -> forall e : E, In (enum_value e) (enum_values E).
Proof. intros Hall e. unfold enum_values. apply in_map, Hall. Qed.

Lemma BufferIndex_complete : enum_complete BufferIndex.
Proof. intros []; simpl; tauto. Qed.

Lemma TextureIndex_complete : enum_complete TextureIndex.
Proof. intros []; simpl; tauto. Qed.

Lemma VertexAttribute_complete : enum_complete VertexAttribute.
Proof. intros []; simpl; tauto. Qed.

(** ** Slot registry *)

Ltac in_list_cases H :=
  simpl in H;
  repeat match type of H with
         | _ \/ _ => destruct H as [H | H]
         | False => contradiction
         end.

Lemma buffer_values : ns_values NsBuffer = [0; 1; 2; 3].
Proof. reflexivity. Qed.

Lemma texture_values : ns_values NsTexture = [0; 1; 8].
Proof. reflexivity. Qed.

Lemma vertex_attribute_values : ns_values NsVertexAttribute = [0; 1; 2].
Proof. reflexivity. Qed.

Lemma ns_values_distinct (ns : Namespace) : pairwise_distinct (ns_values ns).
Proof.
  unfold pairwise_distinct.
  destruct ns; [rewrite buffer_values | rewrite texture_values | rewrite vertex_attribute_values];
    repeat constructor; intros Hin; in_list_cases Hin; discriminate.
Qed.

Lemma ns_values_non_negative (ns : Namespace) : non_negative (ns_values ns).
Proof.
  unfold non_negative.
  destruct ns; [rewrite buffer_values | rewrite texture_values | rewrite vertex_attribute_values];
    repeat constructor; lia.
Qed.

Lemma ns_values_start_at_zero (ns : Namespace) : starts_at_zero (ns_values ns).
Proof. destruct ns; left; reflexivity. Qed.

Lemma buffer_contiguous : contiguous_from_zero (ns_values NsBuffer).
Proof.
  rewrite buffer_values. intros v; simpl; split.
  - intros Hin; in_list_cases Hin; subst v; lia.
  - intros Hv.
    assert (v = 0 \/ v = 1 \/ v = 2 \/ v = 3) as Hc by lia.
    intuition auto.
Qed.

Lemma vertex_attribute_contiguous : contiguous_from_zero (ns_values NsVertexAttribute).
Proof.
  rewrite vertex_attribute_values. intros v; simpl; split.
  - intros Hin; in_list_cases Hin; subst v; lia.
  - intros Hv.
    assert (v = 0 \/ v = 1 \/ v = 2) as Hc by lia.
    intuition auto.
Qed.

Lemma texture_gap (v : Z) : 2 <= v <= 7 -> ~ In v (ns_values NsTexture).
Proof.
  intros Hv Hin. rewrite texture_values in Hin. in_list_cases Hin; lia.
Qed.

(** C9: the numeric slot assignments.  Buffer slots: mesh positions 0, mesh
    generics 1, shared uniforms 2, instance uniforms 3.  Texture slots: Y 0,
    CbCr 1, mask 8, and no texture slot has a value from 2 to 7.
    Vertex-attribute slots: position 0, texcoord 1, normal 2. *)
Theorem slot_assignments :
  (enum_value BufferIndexMeshPositions = 0 /\
   enum_value BufferIndexMeshGenerics = 1 /\
   enum_value BufferIndexSharedUniforms = 2 /\
   enum_value BufferIndexInstanceUniforms = 3) /\
  (enum_value TextureIndexY = 0 /\
   enum_value TextureIndexCbCr = 1 /\
   enum_value TextureIndexMask = 8 /\
   forall t : TextureIndex, enum_value t < 2 \/ 7 < enum_value t) /\
  (enum_value VertexAttributePosition = 0 /\
   enum_value VertexAttributeTexcoord = 1 /\
   enum_value VertexAttributeNormal = 2).
Proof.
  repeat split; try reflexivity.
  intros t. destruct t; simpl; lia.
Qed.

(** C2, as the spec states it, fails: not every slot namespace is contiguous
    from zero.  The texture namespace holds the value 8 although it has only
    three slots. *)
Lemma texture_slots_not_contiguous :
  ~ (forall ns : Namespace,
       pairwise_distinct (ns_values ns) /\
       non_negative (ns_values ns) /\
       contiguous_from_zero (ns_values ns)).
Proof.
  intros Hall.
  destruct (Hall NsTexture) as (_ & _ & Hcontig).
  destruct (Hcontig 8) as [Hin _].
  rewrite texture_values in Hin. simpl in Hin.
  assert (0 <= 8 < 3) as Habs by (apply Hin; auto).
  lia.
Qed.

(** C2, amended: in every slot namespace the values are pairwise distinct
    non-negative integers, 0 among them, and every enumerator's value is one
    of them; the buffer and the vertex-attribute namespaces are contiguous
    from zero; the texture namespace is 0, 1, 8, with nothing at 2 to 7. *)
Theorem slot_namespaces_well_formed :
  (forall ns : Namespace,
     pairwise_distinct (ns_values ns) /\
     non_negative (ns_values ns) /\
     starts_at_zero (ns_values ns)) /\
  (forall b : BufferIndex, In (enum_value b) (ns_values NsBuffer)) /\
  (forall t : TextureIndex, In (enum_value t) (ns_values NsTexture)) /\
  (forall a : VertexAttribute, In (enum_value a) (ns_values NsVertexAttribute)) /\
  contiguous_from_zero (ns_values NsBuffer) /\
  contiguous_from_zero (ns_values NsVertexAttribute) /\
  ns_values NsTexture = [0; 1; 8] /\
  Forall (fun v => ~ In v (ns_values NsTexture)) [2; 3; 4; 5; 6; 7].
Proof.
  split; [| split; [| split; [| split; [| split; [| split; [| split]]]]]].
  - intros ns. split; [| split].
    + apply ns_values_distinct.
    + apply ns_values_non_negative.
    + apply ns_values_start_at_zero.
  - apply (enum_value_in_values BufferIndex), BufferIndex_complete.
  - apply (enum_value_in_values TextureIndex), TextureIndex_complete.
  - apply (enum_value_in_values VertexAttribute), VertexAttribute_complete.
  - apply buffer_contiguous.
  - apply vertex_attribute_contiguous.
  - apply texture_values.
  - repeat constructor; apply texture_gap; lia.
Qed.

(** C3, as the spec states it, fails: the value sets of two different slot
    enumerations are not disjoint.  The value 0 is both a buffer slot and a
    texture slot. *)
Lemma slot_value_sets_overlap :
  ~ (forall n1 n2 : Namespace,
       n1 <> n2 -> disjoint_values (ns_values n1) (ns_values n2)).
Proof.
  intros Hdisj.
  apply (Hdisj NsBuffer NsTexture ltac:(discriminate) 0).
  - rewrite buffer_values. left; reflexivity.
  - rewrite texture_values. left; reflexivity.
Qed.

(** C3, amended: the slot identifiers form three separate enumerations of
    small integers (every value lies between 0 and 8).  They are disjoint as
    namespaces: a slot named by its namespace and its value is never named
    twice, and within one namespace values are distinct.  Their numeric
    value sets overlap: 0 and 1 are values of all three. *)
Theorem slot_namespaces_separate :
  NoDup all_slots /\
  List.length all_slots = 10%nat /\
  Forall (fun slot => 0 <= snd slot <= 8) all_slots /\
  (forall ns : Namespace,
     pairwise_distinct (ns_values ns) /\
     In 0 (ns_values ns) /\ In 1 (ns_values ns)).
Proof.
  split; [| split; [| split]].
  - cbv [all_slots all_namespaces flat_map ns_slots app].
    rewrite buffer_values, texture_values, vertex_attribute_values. simpl.
    repeat constructor; intros Hin; in_list_cases Hin; discriminate.
  - reflexivity.
  - cbv [all_slots all_namespaces flat_map ns_slots app].
    rewrite buffer_values, texture_values, vertex_attribute_values. simpl.
    repeat constructor; simpl; lia.
  - intros ns. split; [apply ns_values_distinct |].
    destruct ns; split; simpl; auto.
Qed.

(** ** Records under the device layout rules *)

Lemma simd_sizes :
  base_sizeof simd float = 4 /\
  base_sizeof simd int = 4 /\
  base_sizeof simd uint32_t = 4 /\
  base_sizeof simd vector_float2 = 8 /\
  base_sizeof simd vector_float3 = 16 /\
  base_sizeof simd matrix_float4x4 = 64.
Proof. repeat split; reflexivity. Qed.

Lemma simd_alignments :
  base_alignof simd float = 4 /\
  base_alignof simd int = 4 /\
  base_alignof simd uint32_t = 4 /\
  base_alignof simd vector_float2 = 8 /\
  base_alignof simd vector_float3 = 16 /\
  base_alignof simd matrix_float4x4 = 16.
Proof. repeat split; reflexivity. Qed.

Lemma SharedUniforms_offsets :
  field_offsets simd SharedUniforms =
  [ ("viewMatrix", 0); ("projectionMatrix", 64); ("ambientLightColor", 128);
    ("directionalLightDirection", 144); ("directionalLightColor", 160);
    ("materialShininess", 176); ("time", 180); ("_pad", 184) ]%string.
Proof. reflexivity. Qed.

Lemma LayerUniforms_offsets :
  field_offsets simd LayerUniforms =
  [ ("transform", 0); ("scale", 64); ("depth", 68); ("mode", 72);
    ("_pad", 76) ]%string.
Proof. reflexivity. Qed.

Lemma ShadowUniforms_offsets :
  field_offsets simd ShadowUniforms =
  [ ("lightViewMatrix", 0); ("lightProjectionMatrix", 64);
    ("shadowBias", 128) ]%string.
Proof. reflexivity. Qed.

Lemma Vertex_offsets :
  field_offsets simd Vertex =
  [ ("position", 0); ("texCoord", 16); ("textureIndex", 24) ]%string.
Proof. reflexivity. Qed.

(** The alignment of the 2-vector (8 or 16 bytes) changes no offset and no
    size of any record. *)
Lemma vector_float2_alignment_irrelevant :
  map (field_offsets simd_align16) records = map (field_offsets simd) records /\
  map (struct_sizeof simd_align16) records = map (struct_sizeof simd) records /\
  map (struct_alignof simd_align16) records = map (struct_alignof simd) records.
Proof. repeat split; reflexivity. Qed.

Lemma records_alignment :
  Forall (fun s => struct_alignof simd s = 16) records.
Proof. repeat constructor. Qed.

(** No record has a gap between two of its fields. *)
Lemma records_no_interior_padding :
  Forall (fun s => interior_padding simd s = 0) records.
Proof. repeat constructor. Qed.

(** Every record's size is a multiple of 16 bytes. *)
Lemma records_size_aligned :
  Forall (fun s => (16 | struct_sizeof simd s)) records.
Proof.
  pose proof records_alignment as Hal.
  unfold records in *.
  repeat match goal with
         | H : Forall _ (_ :: _) |- _ => inversion H; subst; clear H
         end.
  repeat constructor;
    match goal with
    | H : struct_alignof simd ?s = 16 |- (16 | struct_sizeof simd ?s) =>
        rewrite <- H; apply fields_sizeof_aligned
    end.
Qed.

(** C1, as the spec states it, fails: the header does not assert the size
    and alignment of its records.  SharedUniforms is declared and nothing
    in the header asserts its size. *)
Lemma ShaderTypes_h_layout_not_asserted : ~ layout_asserted ShaderTypes_h.
Proof.
  intros Hall.
  destruct (Hall SharedUniforms) as [Hsize _].
  - simpl. left; reflexivity.
  - apply Hsize. reflexivity.
Qed.

(** C1, amended: the header holds no static assertion and no function that
    could check a layout when the process starts.  It consists of one
    include, three enumerations and the five records; no record has its size
    or alignment asserted, and what ties a record to the other side is the
    comment above it, "must match structure in Swift". *)
Theorem ShaderTypes_h_has_no_layout_check :
  forallb (fun d => negb (is_layout_check d)) ShaderTypes_h = true /\
  List.length ShaderTypes_h = 9%nat /\
  declared_records ShaderTypes_h = records /\
  Forall (fun s =>
            asserts_about ShaderTypes_h (s_name s) AssertSize = [] /\
            asserts_about ShaderTypes_h (s_name s) AssertAlign = [] /\
            says_must_match s = true) records.
Proof.
  split; [reflexivity | split; [reflexivity | split; [reflexivity |]]].
  repeat constructor.
Qed.

(** C4, as the spec states it, fails: not every record spells out all of
    its bytes.  ShadowUniforms ends at byte 132 and its size is 144: twelve
    bytes are trailing padding that no field declares. *)
Lemma ShadowUniforms_not_fully_explicit :
  ~ (forall s : struct_decl, In s records -> fully_explicit simd s).
Proof.
  intros Hall.
  destruct (Hall ShadowUniforms) as [_ Htrail].
  - simpl. tauto.
  - vm_compute in Htrail. discriminate Htrail.
Qed.

(** C4, amended: in every record each field starts where the one before
    ends, so the device's alignment rules open no gap between fields.
    InstanceUniforms and LayerUniforms spell out all of their bytes;
    LayerUniforms does so through its reserved [_pad] float, without which
    its fields would end at byte 76 of 80.  ShadowUniforms and Vertex have
    no reserved field, and their sizes include 12 and 4 bytes of trailing
    padding added by the compiler. *)
Theorem records_explicit_layout :
  Forall (fun s => interior_padding simd s = 0) records /\
  fully_explicit simd InstanceUniforms /\
  fully_explicit simd LayerUniforms /\
  has_padding_field LayerUniforms = true /\
  fields_end simd 0 (removelast (s_fields LayerUniforms)) = 76 /\
  fields_sizeof simd (removelast (s_fields LayerUniforms)) = 80 /\
  has_padding_field ShadowUniforms = false /\
  trailing_padding simd ShadowUniforms = 12 /\
  has_padding_field Vertex = false /\
  trailing_padding simd Vertex = 4.
Proof.
  split; [apply records_no_interior_padding |].
  split.
  { apply (single_field_record simd simd_alignof_pos InstanceUniforms
             (mkField (Tbase matrix_float4x4) "modelMatrix")).
    - reflexivity.
    - exists 4. reflexivity. }
  split.
  { split; [reflexivity |].
    apply (aligned_end_no_trailing simd).
    exists 5. reflexivity. }
  repeat split; reflexivity.
Qed.

(** C5: the size of InstanceUniforms is the size of one 4 x 4 matrix of
    single-precision floats, 64 bytes (16 components of 4 bytes), with no
    padding between or after its fields; the matrix is 16-byte aligned and
    64 is a multiple of 16. *)
Theorem InstanceUniforms_is_one_matrix :
  field_types InstanceUniforms = [Tbase matrix_float4x4] /\
  struct_sizeof simd InstanceUniforms = base_sizeof simd matrix_float4x4 /\
  base_sizeof simd matrix_float4x4 = 64 /\
  elem_kind matrix_float4x4 = Float32 /\
  components matrix_float4x4 * base_sizeof simd float = 64 /\
  fully_explicit simd InstanceUniforms /\
  base_alignof simd matrix_float4x4 = 16 /\
  (base_alignof simd matrix_float4x4 | base_sizeof simd matrix_float4x4).
Proof.
  assert (Hdiv : (base_alignof simd matrix_float4x4 | base_sizeof simd matrix_float4x4))
    by (exists 4; reflexivity).
  destruct (single_field_record simd simd_alignof_pos InstanceUniforms
              (mkField (Tbase matrix_float4x4) "modelMatrix") eq_refl Hdiv)
    as [Hsize Hexplicit].
  repeat split; try reflexivity; try (apply Hexplicit); try exact Hdiv.
Qed.

(** C6: what the code does with the reserved field of SharedUniforms.  The
    fields before [_pad] end at byte 184; the three floats of [_pad] take
    the record to byte 196, which is 4 past a multiple of 16, so the
    compiler appends 12 bytes of its own to reach the size 208.  The size is
    a multiple of 16, but the reserved field is not what rounds the record:
    without it the record would round to 192 bytes. *)
Theorem SharedUniforms_pad_misses_boundary :
  find_field "_pad" SharedUniforms = Some (mkField (Tarray (Tbase float) 3) "_pad") /\
  offsetof simd SharedUniforms "_pad" = Some 184 /\
  sizeof simd (Tarray (Tbase float) 3) = 12 /\
  declared_end simd SharedUniforms = 196 /\
  declared_end simd SharedUniforms mod 16 = 4 /\
  trailing_padding simd SharedUniforms = 12 /\
  struct_sizeof simd SharedUniforms = 208 /\
  (16 | struct_sizeof simd SharedUniforms) /\
  fields_sizeof simd (removelast (s_fields SharedUniforms)) = 192.
Proof.
  assert (Hend : declared_end simd SharedUniforms = 196) by reflexivity.
  assert (Hsize : struct_sizeof simd SharedUniforms = 208) by reflexivity.
  split; [reflexivity |].
  split; [reflexivity |].
  split; [reflexivity |].
  split; [exact Hend |].
  split; [rewrite Hend; reflexivity |].
  split; [unfold trailing_padding; rewrite Hend, Hsize; reflexivity |].
  split; [exact Hsize |].
  split; [| reflexivity].
  pose proof records_size_aligned as Hall.
  inversion Hall; assumption.
Qed.

(** A reserved field of two floats would end the record on a 16-byte
    boundary, as the reserved float of LayerUniforms does. *)
Remark SharedUniforms_two_float_pad_aligns :
  let fs := removelast (s_fields SharedUniforms)
              ++ [mkField (Tarray (Tbase float) 2) "_pad"] in
  fields_end simd 0 fs = 192 /\ fields_sizeof simd fs = 192 /\
  declared_end simd LayerUniforms = struct_sizeof simd LayerUniforms.
Proof. repeat split; reflexivity. Qed.

(** Were a 3-vector three packed floats, the reserved field would end at
    byte 184, again off a 16-byte boundary. *)
Remark SharedUniforms_pad_misses_boundary_packed :
  declared_end packed3 SharedUniforms = 184 /\
  declared_end packed3 SharedUniforms mod 16 = 8 /\
  struct_sizeof packed3 SharedUniforms = 192.
Proof. repeat split; reflexivity. Qed.

(** C7, as the spec states it, fails: the declared type of [mode] does not
    admit only non-negative values.  [mode] is an [int], and -1 is an
    [int]. *)
Lemma LayerUniforms_mode_admits_negative :
  ~ (forall (b : base_type) (v : Z),
       option_map f_type (find_field "mode" LayerUniforms) = Some (Tbase b) ->
       admits b v -> 0 <= v).
Proof.
  intros Hall.
  assert (0 <= -1) as Habs.
  { apply (Hall int (-1)).
    - reflexivity.
    - unfold admits; simpl. lia. }
  lia.
Qed.

(** C7, amended: the [mode] field of LayerUniforms is a signed 32-bit
    integer, four bytes at offset 72.  Its declared type admits exactly the
    integers from -2^31 to 2^31 - 1, so the small non-negative enumerants
    and the negative numbers alike; nothing else about it is declared. *)
Theorem LayerUniforms_mode_is_signed_int :
  option_map f_type (find_field "mode" LayerUniforms) = Some (Tbase int) /\
  elem_kind int = SInt32 /\
  components int = 1 /\
  (forall v : Z, admits int v <-> - 2 ^ 31 <= v <= 2 ^ 31 - 1) /\
  offsetof simd LayerUniforms "mode" = Some 72 /\
  sizeof simd (Tbase int) = 4.
Proof.
  split; [reflexivity |].
  split; [reflexivity |].
  split; [reflexivity |].
  split; [| split; reflexivity].
  intros v. unfold admits; simpl. lia.
Qed.

(** C8: the Vertex record is, in this order, [position] (3 single-precision
    floats), [texCoord] (2 single-precision floats) and [textureIndex], an
    unsigned 32-bit integer (one component, values 0 to 2^32 - 1).  The
    fields lie at offsets 0, 16 and 24 and the stride is 32 bytes; the order
    matters for it: the same fields with [texCoord] first give 48. *)
Theorem Vertex_fields_and_stride :
  field_names Vertex = ["position"; "texCoord"; "textureIndex"]%string /\
  field_types Vertex = [Tbase vector_float3; Tbase vector_float2; Tbase uint32_t] /\
  (components vector_float3 = 3 /\ elem_kind vector_float3 = Float32) /\
  (components vector_float2 = 2 /\ elem_kind vector_float2 = Float32) /\
  (components uint32_t = 1 /\ elem_kind uint32_t = UInt32 /\
   int_range UInt32 = Some (0, 2 ^ 32 - 1) /\
   (forall v : Z, admits uint32_t v <-> 0 <= v < 2 ^ 32)) /\
  field_offsets simd Vertex = [("position", 0); ("texCoord", 16); ("textureIndex", 24)]%string /\
  struct_sizeof simd Vertex = 32 /\
  (exists fs : list field,
     Permutation fs (s_fields Vertex) /\
     fields_sizeof simd fs = 48).
Proof.
  split; [reflexivity |].
  split; [reflexivity |].
  split; [split; reflexivity |].
  split; [split; reflexivity |].
  split.
  { split; [reflexivity |]. split; [reflexivity |]. split; [reflexivity |].
    intros v. unfold admits; simpl. lia. }
  split; [apply Vertex_offsets |].
  split; [reflexivity |].
  exists [ mkField (Tbase vector_float2) "texCoord";
           mkField (Tbase vector_float3) "position";
           mkField (Tbase uint32_t) "textureIndex" ].
  split; [apply perm_swap | reflexivity].
Qed.

(** C10: under the device layout rules a 3-component float vector is 16
    bytes large though its components take 12, every field of that type
    takes up 16 bytes of its record, and the records are 208
    (SharedUniforms), 80 (LayerUniforms), 144 (ShadowUniforms) and 32
    (Vertex) bytes large. *)
Theorem record_sizes :
  base_sizeof simd vector_float3 = 16 /\
  components vector_float3 * base_sizeof simd float = 12 /\
  vector_float3_footprints simd SharedUniforms =
    [ ("ambientLightColor", 16); ("directionalLightDirection", 16);
      ("directionalLightColor", 16) ]%string /\
  vector_float3_footprints simd Vertex = [("position", 16)]%string /\
  vector_float3_footprints simd InstanceUniforms = [] /\
  vector_float3_footprints simd LayerUniforms = [] /\
  vector_float3_footprints simd ShadowUniforms = [] /\
  struct_sizeof simd SharedUniforms = 208 /\
  struct_sizeof simd LayerUniforms = 80 /\
  struct_sizeof simd ShadowUniforms = 144 /\
  struct_sizeof simd Vertex = 32.
Proof.
  destruct simd_sizes as (Hf & _ & _ & _ & Hv3 & _).
  split; [exact Hv3 |].
  split; [rewrite Hf; reflexivity |].
  repeat split; reflexivity.
Qed.

(** ** Fields placed in a record, on any target *)

Section ExtentFacts.

Variable T : target.

Hypothesis alignof_pos : forall b : base_type, 0 < base_alignof T b.

Lemma extents_from_fields (off : Z) (fs : list field) :
  map e_field (extents_from T off fs) = fs.
Proof.
  revert off. induction fs as [| f fs IH]; intros off; simpl.
  - reflexivity.
  - rewrite IH. reflexivity.
Qed.

(** The extents start where [offsets_from] puts the fields. *)
Lemma extents_from_offsets (off : Z) (fs : list field) :
  map (fun e => (f_name (e_field e), e_start e)) (extents_from T off fs) =
  offsets_from T off fs.
Proof.
  revert off. induction fs as [| f fs IH]; intros off; simpl.
  - reflexivity.
  - rewrite IH. reflexivity.
Qed.

Lemma fields_end_ge (off : Z) (fs : list field) :
  Forall (sized T) fs -> off <= fields_end T off fs.
Proof.
  intros Hs. revert off.
  induction Hs as [| f fs Hf _ IH]; intros off; simpl.
  - lia.
  - pose proof (IH (field_end T off f)) as Hle.
    pose proof (field_start_ge T alignof_pos off f) as Hge.
    unfold field_end in *. unfold sized in Hf. lia.
Qed.

(** Every field lies between the offset the layout starts from and the end
    of the last field, and is not empty. *)
Lemma extents_from_bounds (off : Z) (fs : list field) :
  Forall (sized T) fs ->
  Forall (fun e => off <= e_start e /\ e_start e < e_end e /\
                   e_end e <= fields_end T off fs)
         (extents_from T off fs).
Proof.
  intros Hs. revert off.
  induction Hs as [| f fs Hf Hfs IH]; intros off; simpl.
  - constructor.
  - pose proof (field_start_ge T alignof_pos off f) as Hge.
    pose proof (fields_end_ge (field_end T off f) fs Hfs) as Hend.
    assert (Hlt : field_start T off f < field_end T off f)
      by (unfold field_end; unfold sized in Hf; lia).
    constructor.
    + simpl. lia.
    + eapply Forall_impl; [| apply IH].
      intros e (H1 & H2 & H3). lia.
Qed.

(** A field ends before every field declared after it starts. *)
Lemma extents_from_ordered (off : Z) (fs : list field) :
  Forall (sized T) fs ->
  ForallOrdPairs (fun x y => e_end x <= e_start y) (extents_from T off fs).
Proof.
  intros Hs. revert off.
  induction Hs as [| f fs Hf Hfs IH]; intros off; simpl.
  - constructor.
  - constructor.
    + eapply Forall_impl; [| apply (extents_from_bounds (field_end T off f) fs Hfs)].
      intros e (H1 & _). simpl. exact H1.
    + apply IH.
Qed.

Lemma extents_from_aligned (off : Z) (fs : list field) :
  Forall (fun e => (alignof T (f_type (e_field e)) | e_start e))
         (extents_from T off fs).
Proof.
  revert off. induction fs as [| f fs IH]; intros off; simpl.
  - constructor.
  - constructor; [apply field_start_aligned | apply IH].
Qed.

(** Fields declared after the fields [fs] leave the offsets of [fs] as they
    are. *)
Lemma offsets_from_app (off : Z) (fs extra : list field) :
  offsets_from T off (fs ++ extra) =
  offsets_from T off fs ++ offsets_from T (fields_end T off fs) extra.
Proof.
  revert off. induction fs as [| f fs IH]; intros off; simpl.
  - reflexivity.
  - rewrite IH. reflexivity.
Qed.

Lemma offsets_from_length (off : Z) (fs : list field) :
  List.length (offsets_from T off fs) = List.length fs.
Proof.
  revert off. induction fs as [| f fs IH]; intros off; simpl; [| rewrite IH]; reflexivity.
Qed.

(** Inside one record: every field lies within the record and no two fields
    share a byte. *)
Lemma struct_fields_disjoint (s : struct_decl) :
  Forall (sized T) (s_fields s) ->
  Forall (fun e => 0 <= e_start e /\ e_start e < e_end e /\
                   e_end e <= struct_sizeof T s) (extents T s) /\
  ForallOrdPairs (fun x y => e_end x <= e_start y) (extents T s).
Proof.
  intros Hs. split; [| apply extents_from_ordered; exact Hs].
  pose proof (fields_sizeof_covers T (s_fields s)) as Hcov.
  eapply Forall_impl; [| apply (extents_from_bounds 0 (s_fields s) Hs)].
  intros e (H1 & H2 & H3). unfold struct_sizeof. lia.
Qed.

(** In a buffer: a field of record [i] ends before any field of a later
    record [j] starts. *)
Lemma buffer_elements_disjoint (s : struct_decl) (i j : Z) :
  Forall (sized T) (s_fields s) -> i < j ->
  Forall (fun x =>
    Forall (fun y => element_base T s i + e_end x <= element_base T s j + e_start y)
           (extents T s)) (extents T s).
Proof.
  intros Hs Hij.
  destruct (struct_fields_disjoint s Hs) as [Hin _].
  pose proof (fields_sizeof_covers T (s_fields s)) as Hcov.
  pose proof (fields_end_ge 0 (s_fields s) Hs) as Hge.
  assert (Hsize : 0 <= struct_sizeof T s) by (unfold struct_sizeof; lia).
  assert (Hstep : (i + 1) * struct_sizeof T s <= j * struct_sizeof T s)
    by (apply Z.mul_le_mono_nonneg_r; lia).
  rewrite Forall_forall in Hin.
  apply Forall_forall; intros x Hx. apply Forall_forall; intros y Hy.
  destruct (Hin x Hx) as (_ & _ & Hxe). destruct (Hin y Hy) as (Hys & _).
  unfold element_base. lia.
Qed.

(** In a buffer: when the alignment of every field divides the alignment of
    the record, every field of every record of the buffer is aligned. *)
Lemma buffer_fields_aligned (s : struct_decl) (i : Z) :
  Forall (fun f => (alignof T (f_type f) | struct_alignof T s)) (s_fields s) ->
  Forall (fun e => (alignof T (f_type (e_field e)) | element_base T s i + e_start e))
         (extents T s).
Proof.
  intros Hdiv.
  pose proof (extents_from_aligned 0 (s_fields s)) as Hal.
  pose proof (extents_from_fields 0 (s_fields s)) as Hfs.
  rewrite Forall_forall in Hal, Hdiv.
  apply Forall_forall; intros e He.
  assert (Hin : In (e_field e) (s_fields s)).
  { rewrite <- Hfs. apply in_map. exact He. }
  apply Z.divide_add_r; [| apply Hal; exact He].
  unfold element_base. apply Z.divide_mul_r.
  apply Z.divide_trans with (struct_alignof T s); [apply Hdiv; exact Hin |].
  apply fields_sizeof_aligned.
Qed.

End ExtentFacts.

(** ** The records in a buffer, under the device layout rules *)

Lemma records_fields_sized :
  Forall (fun s => Forall (sized simd) (s_fields s)) records.
Proof. repeat constructor. Qed.

Lemma records_field_alignments_divide :
  Forall (fun s =>
    Forall (fun f => (alignof simd (f_type f) | struct_alignof simd s)) (s_fields s))
    records.
Proof.
  repeat (apply Forall_cons || apply Forall_nil);
    (apply Z.mod_divide;
     [ intros Hz; vm_compute in Hz; discriminate Hz | vm_compute; reflexivity ]).
Qed.

(** X1: including the header again changes nothing.  However many times in
    a row the header is included, and whatever macros were defined before,
    the declarations and the macros are those of a single inclusion; once the
    guard macro is defined an inclusion declares nothing. *)
Theorem include_guard_idempotent (n : nat) (defined : list string) :
  include_times (S n) defined = include_ShaderTypes_h defined /\
  fst (include_ShaderTypes_h (snd (include_ShaderTypes_h defined))) = [].
Proof.
  assert (Hafter : is_defined guard_macro (snd (include_ShaderTypes_h defined)) = true).
  { unfold include_ShaderTypes_h.
    destruct (is_defined guard_macro defined) eqn:Hd; simpl.
    - exact Hd.
    - reflexivity. }
  assert (Hnone : forall m ds, is_defined guard_macro ds = true ->
                               include_times m ds = ([], ds)).
  { induction m as [| m IH]; intros ds Hds; simpl.
    - reflexivity.
    - unfold include_ShaderTypes_h. rewrite Hds. rewrite (IH ds Hds). reflexivity. }
  split.
  - simpl. destruct (include_ShaderTypes_h defined) as [ds defined'] eqn:Hinc.
    simpl in Hafter. rewrite (Hnone n defined' Hafter).
    rewrite app_nil_r. reflexivity.
  - unfold include_ShaderTypes_h at 1. rewrite Hafter. reflexivity.
Qed.

(** X2: in each of the five records every field lies inside the record, is
    not empty, and ends before the next declared field starts: no two
    fields of a record share a byte. *)
Theorem record_fields_do_not_overlap :
  Forall (fun s =>
    map e_field (extents simd s) = s_fields s /\
    Forall (fun e => 0 <= e_start e /\ e_start e < e_end e /\
                     e_end e <= struct_sizeof simd s) (extents simd s) /\
    ForallOrdPairs (fun x y => e_end x <= e_start y) (extents simd s))
    records.
Proof.
  pose proof records_fields_sized as Hsized.
  rewrite Forall_forall in Hsized.
  apply Forall_forall; intros s Hs.
  split; [apply extents_from_fields |].
  apply (struct_fields_disjoint simd simd_alignof_pos s (Hsized s Hs)).
Qed.

(** X3: records of one type laid one after the other in a buffer keep every
    field aligned: for each of the five records and every index [i], record
    [i] starts at a multiple of 16 bytes and each of its fields at a
    multiple of the field's own alignment. *)
Theorem buffer_records_stay_aligned :
  Forall (fun s => forall i : Z,
    (16 | element_base simd s i) /\
    Forall (fun e =>
      (alignof simd (f_type (e_field e)) | element_base simd s i + e_start e))
      (extents simd s))
    records.
Proof.
  pose proof records_field_alignments_divide as Hdiv.
  pose proof records_size_aligned as Hsize.
  rewrite Forall_forall in Hdiv, Hsize.
  apply Forall_forall; intros s Hs i. split.
  - unfold element_base. apply Z.divide_mul_r, Hsize, Hs.
  - apply (buffer_fields_aligned simd s i), Hdiv, Hs.
Qed.

(** X4: two different records of a buffer never share a byte: for each of
    the five record types and indices [i < j], every field of record [i]
    ends before any field of record [j] starts. *)
Theorem buffer_records_do_not_overlap :
  Forall (fun s => forall i j : Z, i < j ->
    Forall (fun x =>
      Forall (fun y =>
        element_base simd s i + e_end x <= element_base simd s j + e_start y)
        (extents simd s)) (extents simd s))
    records.
Proof.
  pose proof records_fields_sized as Hsized.
  rewrite Forall_forall in Hsized.
  apply Forall_forall; intros s Hs i j Hij.
  apply (buffer_elements_disjoint simd simd_alignof_pos s i j (Hsized s Hs) Hij).
Qed.

(** X5: declaring more fields at the end of a record moves none of the
    fields it has: on any target, for any record and any fields appended to
    it, the offsets of the existing fields stay what they were. *)
Theorem appended_fields_keep_offsets
    (T : target) (s : struct_decl) (extra : list field) :
  firstn (List.length (s_fields s)) (offsets_from T 0 (s_fields s ++ extra)) =
  field_offsets T s.
Proof.
  rewrite offsets_from_app.
  rewrite <- (offsets_from_length T 0 (s_fields s)).
  rewrite firstn_app, Nat.sub_diag, firstn_all. simpl.
  apply app_nil_r.
Qed.

Lemma distinct_names_NoDup (l : list string) :
  distinct_names l = true -> NoDup l.
Proof.
  induction l as [| x l IH]; simpl; intros Hd.
  - constructor.
  - apply andb_true_iff in Hd. destruct Hd as [Hx Hl].
    constructor; [| apply IH; exact Hl].
    intros Hin. apply negb_true_iff in Hx.
    assert (existsb (String.eqb x) l = true) as Hex.
    { apply existsb_exists. exists x. split; [exact Hin | apply String.eqb_refl]. }
    congruence.
Qed.

(** X6: the header declares no name twice: its ten enumerators and eight
    type names are pairwise distinct, and so are the field names of each
    record. *)
Theorem declared_names_distinct :
  NoDup (declared_names ShaderTypes_h) /\
  List.length (declared_names ShaderTypes_h) = 18%nat /\
  Forall (fun s => NoDup (field_names s)) records.
Proof.
  split; [apply distinct_names_NoDup; vm_compute; reflexivity |].
  split; [reflexivity |].
  repeat (apply Forall_cons || apply Forall_nil);
    apply distinct_names_NoDup; vm_compute; reflexivity.
Qed.
